(** * Numbers: validation and coercion of integer lists (bibliotecas/calc_numbers.py)

    A shallow embedding of the class [Numbers] of the calculator library:
    the two validators [_validate_input_list] and [_validate_integer_list]
    and the two operations [sum_numbers] and [calculate_average], together
    with the fragment of Python they run on: dynamically typed values,
    exceptions, binary64 floats, [float(str)], [int(float)], the mixed
    comparison of an int with a float, [sum] and true division of ints. *)

From Stdlib Require Import ZArith List String Ascii Bool Lia Permutation.
From Stdlib Require Import Floats.SpecFloat.
Import ListNotations.

Local Open Scope string_scope.
Local Open Scope list_scope.
Local Open Scope Z_scope.

(** ** Python values *)

(** A Python float is an IEEE 754 binary64 number: [spec_float] read with a
    53 bit mantissa and infinities at exponent 1024.  [S754_finite s m e]
    is the number [(-1)^s * m * 2^e]. *)
Definition pyfloat := spec_float.

Definition prec : Z := 53.
Definition emax : Z := 1024.

(** The values a decoded JSON document is made of.  A [str] is the sequence
    of its characters; Python ints are unbounded, hence [Z]. *)
#[warnings="-register-all"]
Inductive pyval : Type :=
| PNone
| PBool (b : bool)
| PInt (n : Z)
| PFloat (f : pyfloat)
| PStr (s : string)
| PList (l : list pyval)
| PDict (d : list (string * pyval)).

(** [type(v).__name__] *)
Definition type_name (v : pyval) : string :=
  match v with
  | PNone => "NoneType"
  | PBool _ => "bool"
  | PInt _ => "int"
  | PFloat _ => "float"
  | PStr _ => "str"
  | PList _ => "list"
  | PDict _ => "dict"
  end.

(** [isinstance(v, list)] *)
Definition isinstance_list (v : pyval) : bool :=
  match v with PList _ => true | _ => false end.

(** [isinstance(v, int)]: [bool] is a subclass of [int], so [True] and
    [False] are instances of [int] too. *)
Definition isinstance_int (v : pyval) : bool :=
  match v with PInt _ | PBool _ => true | _ => false end.

(** [isinstance(v, (float, str))] *)
Definition isinstance_float_str (v : pyval) : bool :=
  match v with PFloat _ | PStr _ => true | _ => false end.

(** [v is None] *)
Definition is_None (v : pyval) : bool :=
  match v with PNone => true | _ => false end.

(** The integer an instance of [int] stands for; [True] is 1 and [False]
    is 0.  An int object kept in a list is modelled by this value. *)
Definition int_value (v : pyval) : Z :=
  match v with
  | PInt n => n
  | PBool b => Z.b2z b
  | _ => 0
  end.

Definition float_is_zero (f : pyfloat) : bool :=
  match f with S754_zero _ => true | _ => false end.

(** Truth value of an object, as tested by [not v]. *)
Definition truthy (v : pyval) : bool :=
  match v with
  | PNone => false
  | PBool b => b
  | PInt n => negb (n =? 0)
  | PFloat f => negb (float_is_zero f)
  | PStr s => negb (s =? "")%string
  | PList l => match l with [] => false | _ => true end
  | PDict d => match d with [] => false | _ => true end
  end.

(** The items of a list object, in order. *)
Definition list_items (v : pyval) : list pyval :=
  match v with PList l => l | _ => [] end.

(** ** Exceptions *)

Inductive exc_class : Type :=
| TypeError
| ValueError
| OverflowError
| ZeroDivisionError.

Definition exc_class_eqb (a b : exc_class) : bool :=
  match a, b with
  | TypeError, TypeError
  | ValueError, ValueError
  | OverflowError, OverflowError
  | ZeroDivisionError, ZeroDivisionError => true
  | _, _ => false
  end.

(** The message of an exception.  Each f-string of the library is one
    constructor carrying the values interpolated into it, in the order of
    the text; [pos] is the interpolated [index+1].

    - [MsgNotList op ty]:
      "Erro de tipo na operação de {op}: A entrada deve ser uma lista, mas foi fornecido '{ty}'."
    - [MsgListNone op]:
      "Erro de valor na operação de {op}: A lista de números não pode ser None."
    - [MsgListEmpty op]:
      "Erro de valor na operação de {op}: A lista de números não pode estar vazia."
    - [MsgElemNone op pos]:
      "... Elemento na posição {pos} não pode ser None."
    - [MsgElemLossy op pos item]:
      "... Elemento na posição {pos} ('{item}') não é um inteiro válido e a conversão resultaria em perda de informação. Forneça apenas inteiros."
    - [MsgElemNotConvertible op pos item]:
      "... Elemento na posição {pos} ('{item}') não é um inteiro válido e não pode ser convertido para inteiro."
    - [MsgElemBadType op pos item ty]:
      "... Elemento na posição {pos} ('{item}') não é um inteiro válido. Tipo encontrado: '{ty}'."
    - [MsgBuiltin text]: the message of an exception raised by a builtin.

    Formatting the interpolated values is taken to succeed. *)
Inductive message : Type :=
| MsgNotList (op : string) (ty : string)
| MsgListNone (op : string)
| MsgListEmpty (op : string)
| MsgElemNone (op : string) (pos : nat)
| MsgElemLossy (op : string) (pos : nat) (item : pyval)
| MsgElemNotConvertible (op : string) (pos : nat) (item : pyval)
| MsgElemBadType (op : string) (pos : nat) (item : pyval) (ty : string)
| MsgBuiltin (text : string).

Record exc : Type := Exc { exc_cls : exc_class; exc_msg : message }.

(** A computation either returns a value or raises an exception. *)
Inductive result (A : Type) : Type :=
| Return (a : A)
| Raise (e : exc).
Arguments Return {A} a.
Arguments Raise {A} e.

Definition bind {A B : Type} (c : result A) (k : A -> result B) : result B :=
  match c with
  | Return a => k a
  | Raise e => Raise e
  end.

Notation "x <- c ;; k" := (bind c (fun x => k))
  (at level 61, c at next level, right associativity).

Definition raise {A : Type} (c : exc_class) (m : message) : result A :=
  Raise (Exc c m).

(** [try: body  except cls: handler]: the handler runs when the body raises
    an exception of class [cls]; any other exception passes through. *)
Definition try_except {A : Type} (body : result A) (cls : exc_class)
    (handler : result A) : result A :=
  match body with
  | Return a => Return a
  | Raise e => if exc_class_eqb (exc_cls e) cls then handler else Raise e
  end.

(** [try: body  except (TypeError, ValueError) as e: raise e]: the caught
    exception is raised again as it is. *)
Definition try_reraise {A : Type} (body : result A) : result A :=
  match body with
  | Return a => Return a
  | Raise e =>
      if exc_class_eqb (exc_cls e) TypeError || exc_class_eqb (exc_cls e) ValueError
      then Raise e else Raise e
  end.

(** ** Floats and the builtins on them *)

Definition pow2 (k : Z) : Z := 2 ^ k.

(** The integer part of [m * 2^e], for a mantissa [m > 0]. *)
Definition trunc_mag (m : positive) (e : Z) : Z :=
  if 0 <=? e then Zpos m * pow2 e else Zpos m / pow2 (- e).

(** [m * 2^e] has no fractional part. *)
Definition integral_mag (m : positive) (e : Z) : bool :=
  if 0 <=? e then true else Zpos m mod pow2 (- e) =? 0.

(** [int(f)]: truncation towards zero; NaN and the infinities have no
    integer value. *)
Definition int_of_float (f : pyfloat) : result Z :=
  match f with
  | S754_nan =>
      raise ValueError (MsgBuiltin "cannot convert float NaN to integer")
  | S754_infinity _ =>
      raise OverflowError (MsgBuiltin "cannot convert float infinity to integer")
  | S754_zero _ => Return 0
  | S754_finite s m e => Return (cond_Zopp s (trunc_mag m e))
  end.

(** [n == f] for an int [n] and a float [f]: Python compares the two
    numbers exactly, without rounding [n] to a float. *)
Definition int_eq_float (n : Z) (f : pyfloat) : bool :=
  match f with
  | S754_nan => false
  | S754_infinity _ => false
  | S754_zero _ => n =? 0
  | S754_finite s m e => integral_mag m e && (n =? cond_Zopp s (trunc_mag m e))
  end.

(** A float that is neither NaN nor an infinity. *)
Definition float_finite (f : pyfloat) : bool :=
  match f with
  | S754_zero _ | S754_finite _ _ _ => true
  | _ => false
  end.

(** A finite float whose value is an integer. *)
Definition float_integral (f : pyfloat) : bool :=
  match f with
  | S754_zero _ => true
  | S754_finite _ m e => integral_mag m e
  | _ => false
  end.

(** The integer part of a finite float (0 for NaN and the infinities, which
    have none). *)
Definition float_trunc (f : pyfloat) : Z :=
  match f with
  | S754_finite s m e => cond_Zopp s (trunc_mag m e)
  | _ => 0
  end.

(** The binary64 number nearest to [(-1)^s * num / den] (ties to even), for
    [num >= 0] and [den > 0]; a quotient too large in magnitude rounds to an
    infinity. *)
Definition round_quotient (s : bool) (num den : Z) : pyfloat :=
  if num =? 0 then S754_zero s
  else
    let '(q, e, l) := SFdiv_core_binary prec emax num 0 den 0 in
    binary_round_aux prec emax s q e l.

(** [a / b] for two ints: the correctly rounded quotient. *)
Definition int_truediv (a b : Z) : result pyfloat :=
  if b =? 0 then raise ZeroDivisionError (MsgBuiltin "division by zero")
  else
    let f := round_quotient (xorb (a <? 0) (b <? 0)) (Z.abs a) (Z.abs b) in
    match f with
    | S754_infinity _ =>
        raise OverflowError
          (MsgBuiltin "integer division result too large for a float")
    | _ => Return f
    end.

(** [sum(l)] for a list of ints: [0 + x1 + ... + xn], from the left. *)
Definition py_sum (l : list Z) : Z := fold_left Z.add l 0.

(** [len(l)] *)
Definition py_len {A : Type} (l : list A) : Z := Z.of_nat (List.length l).

(** ** [float(s)] for a string

    The text is stripped of surrounding white space, underscores between
    digits are dropped, and what remains must be, as a whole, an optionally
    signed [inf], [infinity] or [nan] in any letter case, or an optionally
    signed decimal numeral with an optional fraction and an optional
    exponent.  A numeral is rounded to the nearest binary64 number.
    Characters are read as ASCII: the decimal digits and spaces of other
    scripts, which CPython first maps to ASCII, are not recognised here. *)

Definition code (c : ascii) : N := N_of_ascii c.

Definition is_space (c : ascii) : bool :=
  ((code c =? 32) || ((9 <=? code c) && (code c <=? 13))
   || ((28 <=? code c) && (code c <=? 31)))%N.

Definition is_digit (c : ascii) : bool :=
  ((48 <=? code c) && (code c <=? 57))%N.

Definition digit_value (c : ascii) : Z := Z.of_N (code c) - 48.

Definition lower (c : ascii) : ascii :=
  if ((65 <=? code c) && (code c <=? 90))%N then ascii_of_N (code c + 32) else c.

Definition ascii_is (c d : ascii) : bool := Ascii.eqb c d.

Fixpoint chars_eqb (a b : list ascii) : bool :=
  match a, b with
  | [], [] => true
  | c :: a', d :: b' => Ascii.eqb c d && chars_eqb a' b'
  | _, _ => false
  end.

Fixpoint lstrip (l : list ascii) : list ascii :=
  match l with
  | c :: r => if is_space c then lstrip r else l
  | [] => []
  end.

Definition strip (l : list ascii) : list ascii :=
  rev (lstrip (rev (lstrip l))).

(** An underscore is allowed only between two digits; [prev] is the
    character before [l] (the null character at the start). *)
Fixpoint drop_underscores (prev : ascii) (l : list ascii) : option (list ascii) :=
  match l with
  | [] => if ascii_is prev "_" then None else Some []
  | c :: r =>
      if ascii_is c "_" then
        if is_digit prev then drop_underscores c r else None
      else if ascii_is prev "_" && negb (is_digit c) then None
      else option_map (cons c) (drop_underscores c r)
  end.

(** An optional sign and the rest. *)
Definition split_sign (l : list ascii) : bool * list ascii :=
  match l with
  | c :: r =>
      if ascii_is c "-" then (true, r)
      else if ascii_is c "+" then (false, r)
      else (false, l)
  | [] => (false, [])
  end.

Definition parse_inf_or_nan (l : list ascii) : option pyfloat :=
  let '(neg, body) := split_sign l in
  let low := map lower body in
  if chars_eqb low (list_ascii_of_string "inf")
     || chars_eqb low (list_ascii_of_string "infinity")
  then Some (S754_infinity neg)
  else if chars_eqb low (list_ascii_of_string "nan") then Some S754_nan
  else None.

(** The longest prefix of digits, and the rest. *)
Fixpoint span_digits (l : list ascii) : list ascii * list ascii :=
  match l with
  | c :: r =>
      if is_digit c then let '(ds, rest) := span_digits r in (c :: ds, rest)
      else ([], l)
  | [] => ([], [])
  end.

Definition digits_value (ds : list ascii) : Z :=
  fold_left (fun acc c => 10 * acc + digit_value c) ds 0.

(** The decimal number [(-1)^dec_neg * dec_mant * 10^dec_exp]. *)
Record decimal : Type :=
  Decimal { dec_neg : bool; dec_mant : Z; dec_exp : Z }.

(** What follows the mantissa: nothing, or [e] or [E], an optional sign and
    at least one digit, up to the end of the text. *)
Definition parse_exponent (l : list ascii) : option Z :=
  match l with
  | [] => Some 0
  | c :: r =>
      if ascii_is (lower c) "e" then
        let '(neg, r') := split_sign r in
        match span_digits r' with
        | ((_ :: _) as ds, []) => Some (cond_Zopp neg (digits_value ds))
        | _ => None
        end
      else None
  end.

Definition parse_decimal (l : list ascii) : option decimal :=
  let '(neg, body) := split_sign l in
  let '(ip, r1) := span_digits body in
  let '(fp, r2) :=
    match r1 with
    | c :: r => if ascii_is c "." then span_digits r else ([], r1)
    | [] => ([], [])
    end in
  match ip ++ fp with
  | [] => None
  | ds =>
      match parse_exponent r2 with
      | Some e => Some (Decimal neg (digits_value ds) (e - Z.of_nat (List.length fp)))
      | None => None
      end
  end.

(** The binary64 number nearest to a decimal number. *)
Definition round_decimal (d : decimal) : pyfloat :=
  if 0 <=? dec_exp d
  then round_quotient (dec_neg d) (dec_mant d * 10 ^ dec_exp d) 1
  else round_quotient (dec_neg d) (dec_mant d) (10 ^ (- dec_exp d)).

Definition float_of_str (s : string) : result pyfloat :=
  match drop_underscores zero (strip (list_ascii_of_string s)) with
  | None => raise ValueError (MsgBuiltin "could not convert string to float")
  | Some l =>
      match parse_inf_or_nan l with
      | Some f => Return f
      | None =>
          match parse_decimal l with
          | Some d => Return (round_decimal d)
          | None => raise ValueError (MsgBuiltin "could not convert string to float")
          end
      end
  end.

(** [float(v)]: a float is returned as it is, a string is parsed, an int is
    rounded to the nearest float. *)
Definition py_float (v : pyval) : result pyfloat :=
  match v with
  | PFloat f => Return f
  | PStr s => float_of_str s
  | PInt _ | PBool _ =>
      match round_quotient (int_value v <? 0) (Z.abs (int_value v)) 1 with
      | S754_infinity _ =>
          raise OverflowError (MsgBuiltin "int too large to convert to float")
      | f => Return f
      end
  | _ =>
      raise TypeError
        (MsgBuiltin "float() argument must be a string or a real number")
  end.

(** ** The class [Numbers] *)

Definition list_nonempty {A : Type} (l : list A) : bool :=
  match l with [] => false | _ => true end.

Definition _validate_input_list (data : pyval) (operation_name : string)
  : result pyval :=
  if negb (isinstance_list data) then
    raise TypeError (MsgNotList operation_name (type_name data))
  else if is_None data then
    raise ValueError (MsgListNone operation_name)
  else if negb (truthy data) && (operation_name =? "soma")%string then
    raise ValueError (MsgListEmpty operation_name)
  else if negb (truthy data) && (operation_name =? "média")%string then
    Return (PList [])
  else Return data.

(** The body of the loop of [_validate_integer_list] for the item at
    [index]: the integer appended to [integer_list], or the exception that
    ends the loop.  The [raise] of the lossy conversion stands inside the
    [try] whose handler catches [ValueError]. *)
Definition coerce_item (operation_name : string) (index : nat) (item : pyval)
  : result Z :=
  if is_None item then
    raise ValueError (MsgElemNone operation_name (index + 1)%nat)
  else if isinstance_int item then
    Return (int_value item)
  else if isinstance_float_str item then
    try_except
      (f <- py_float item ;;
       integer_item <- int_of_float f ;;
       f' <- py_float item ;;
       if negb (int_eq_float integer_item f') then
         raise ValueError (MsgElemLossy operation_name (index + 1)%nat item)
       else Return integer_item)
      ValueError
      (raise ValueError
         (MsgElemNotConvertible operation_name (index + 1)%nat item))
  else
    raise ValueError
      (MsgElemBadType operation_name (index + 1)%nat item (type_name item)).

(** [for index, item in enumerate(validated_list)], from [index] on, with
    the [integer_list] built so far. *)
Fixpoint validate_items (operation_name : string) (index : nat)
    (items : list pyval) (integer_list : list Z) : result (list Z) :=
  match items with
  | [] => Return integer_list
  | item :: rest =>
      integer_item <- coerce_item operation_name index item ;;
      validate_items operation_name (S index) rest
        (integer_list ++ [integer_item])
  end.

Definition _validate_integer_list (data : pyval) (operation_name : string)
  : result (list Z) :=
  validated_list <- try_reraise (_validate_input_list data operation_name) ;;
  if negb (truthy validated_list) && (operation_name =? "média")%string then
    Return []
  else validate_items operation_name 0 (list_items validated_list) [].

Definition sum_numbers (numeros : pyval) : result Z :=
  try_reraise
    (validated_list <- _validate_integer_list numeros "soma" ;;
     if negb (list_nonempty validated_list) then
       raise ValueError (MsgListEmpty "soma")
     else Return (py_sum validated_list)).

(** The result is [None] or a float. *)
Definition calculate_average (numeros : pyval) : result (option pyfloat) :=
  try_reraise
    (validated_list <- _validate_integer_list numeros "média" ;;
     if negb (list_nonempty validated_list) then Return None
     else
       f <- int_truediv (py_sum validated_list) (py_len validated_list) ;;
       Return (Some f)).

(** ** Specification vocabulary *)

(** The position an element error message names, if it names one. *)
Definition msg_position (m : message) : option nat :=
  match m with
  | MsgElemNone _ pos
  | MsgElemLossy _ pos _
  | MsgElemNotConvertible _ pos _
  | MsgElemBadType _ pos _ _ => Some pos
  | _ => None
  end.


(** The integer the loop body appends for [item], when it accepts it. *)
Definition item_value (item : pyval) : option Z :=
  match coerce_item "" 0 item with
  | Return n => Some n
  | Raise _ => None
  end.

Definition item_valid (item : pyval) : bool :=
  match item_value item with Some _ => true | None => false end.

Definition values (items : list pyval) : list Z :=
  map (fun item => match item_value item with Some n => n | None => 0 end) items.


(** The arithmetic sum of a list of integers. *)
Definition Zsum (l : list Z) : Z := fold_right Z.add 0 l.

(** ** The loop body *)

Section LoopBody.
Variable operation_name : string.
Variable index : nat.

Lemma coerce_item_None :
  coerce_item operation_name index PNone
  = raise ValueError (MsgElemNone operation_name (index + 1)).
Proof. reflexivity. Qed.

Lemma coerce_item_int (n : Z) :
  coerce_item operation_name index (PInt n) = Return n.
Proof. reflexivity. Qed.

Lemma coerce_item_bool (b : bool) :
  coerce_item operation_name index (PBool b) = Return (Z.b2z b).
Proof. reflexivity. Qed.

Lemma coerce_item_list (l : list pyval) :
  coerce_item operation_name index (PList l)
  = raise ValueError (MsgElemBadType operation_name (index + 1) (PList l) "list").
Proof. reflexivity. Qed.

Lemma coerce_item_dict (d : list (string * pyval)) :
  coerce_item operation_name index (PDict d)
  = raise ValueError (MsgElemBadType operation_name (index + 1) (PDict d) "dict").
Proof. reflexivity. Qed.

(** What the [try] block does with the float an item converts to. *)
Lemma coerce_item_float_str (item : pyval) (f : pyfloat) :
  isinstance_float_str item = true ->
  py_float item = Return f ->
  coerce_item operation_name index item =
    match f with
    | S754_infinity _ =>
        raise OverflowError
          (MsgBuiltin "cannot convert float infinity to integer")
    | S754_nan =>
        raise ValueError
          (MsgElemNotConvertible operation_name (index + 1) item)
    | _ =>
        if float_integral f then Return (float_trunc f)
        else raise ValueError
               (MsgElemNotConvertible operation_name (index + 1) item)
    end.
Proof.
  intros Hty Hf.
  destruct item; try discriminate Hty;
    unfold coerce_item; cbn [is_None isinstance_int isinstance_float_str];
    rewrite Hf; destruct f as [sg|sg| |sg m e]; cbn; try reflexivity.
  - destruct (integral_mag m e); cbn; [rewrite Z.eqb_refl|]; reflexivity.
  - destruct (integral_mag m e); cbn; [rewrite Z.eqb_refl|]; reflexivity.
Qed.

(** A string that [float] rejects. *)
Lemma coerce_item_unparsable (s : string) (e : exc) :
  float_of_str s = Raise e ->
  coerce_item operation_name index (PStr s)
  = raise ValueError (MsgElemNotConvertible operation_name (index + 1) (PStr s)).
Proof.
  intros Hf. unfold coerce_item; cbn [is_None isinstance_int isinstance_float_str py_float].
  rewrite Hf. unfold float_of_str in Hf.
  destruct (drop_underscores zero (strip (list_ascii_of_string s))) as [l|];
    [destruct (parse_inf_or_nan l); [discriminate|destruct (parse_decimal l); [discriminate|]]|];
    inversion Hf; reflexivity.
Qed.
End LoopBody.

(** The outcome of the loop body on an item is the same at every index and
    for every operation name, up to the position and name in the message. *)
Lemma coerce_item_value (item : pyval) (n : Z) :
  item_value item = Some n ->
  forall operation_name index, coerce_item operation_name index item = Return n.
Proof.
  unfold item_value. intros H operation_name index.
  destruct item as [|b|k|f|s|l|d]; try discriminate H.
  - cbn in H |- *. congruence.
  - cbn in H |- *. congruence.
  - rewrite (coerce_item_float_str "" 0 (PFloat f) f eq_refl eq_refl) in H.
    rewrite (coerce_item_float_str operation_name index (PFloat f) f eq_refl eq_refl).
    destruct f as [sg|sg| |sg m e]; try discriminate H;
      destruct (float_integral _); try discriminate H; congruence.
  - destruct (float_of_str s) as [f|e] eqn:Hs.
    + rewrite (coerce_item_float_str "" 0 (PStr s) f eq_refl Hs) in H.
      rewrite (coerce_item_float_str operation_name index (PStr s) f eq_refl Hs).
      destruct f as [sg|sg| |sg m e]; try discriminate H;
        destruct (float_integral _); try discriminate H; congruence.
    + rewrite (coerce_item_unparsable "" 0 s e Hs) in H. discriminate H.
Qed.

Lemma coerce_item_return (operation_name : string) (index : nat)
    (item : pyval) (n : Z) :
  coerce_item operation_name index item = Return n -> item_value item = Some n.
Proof.
  unfold item_value. intros H.
  destruct item as [|b|k|f|s|l|d]; try discriminate H.
  - cbn in H |- *. congruence.
  - cbn in H |- *. congruence.
  - rewrite (coerce_item_float_str operation_name index (PFloat f) f eq_refl eq_refl) in H.
    rewrite (coerce_item_float_str "" 0 (PFloat f) f eq_refl eq_refl).
    destruct f as [sg|sg| |sg m e]; try discriminate H;
      destruct (float_integral _); try discriminate H; congruence.
  - destruct (float_of_str s) as [f|e] eqn:Hs.
    + rewrite (coerce_item_float_str operation_name index (PStr s) f eq_refl Hs) in H.
      rewrite (coerce_item_float_str "" 0 (PStr s) f eq_refl Hs).
      destruct f as [sg|sg| |sg m e]; try discriminate H;
        destruct (float_integral _); try discriminate H; congruence.
    + rewrite (coerce_item_unparsable operation_name index s e Hs) in H.
      discriminate H.
Qed.

Lemma item_valid_value (item : pyval) :
  item_valid item = true ->
  forall operation_name index,
    coerce_item operation_name index item
    = Return (match item_value item with Some n => n | None => 0 end).
Proof.
  unfold item_valid. destruct (item_value item) as [n|] eqn:Hv; [|discriminate].
  intros _ operation_name index. now apply coerce_item_value.
Qed.

Lemma item_invalid_raises (operation_name : string) (index : nat) (item : pyval) :
  item_valid item = false ->
  exists e, coerce_item operation_name index item = Raise e.
Proof.
  unfold item_valid. intros H.
  destruct (coerce_item operation_name index item) as [n|e] eqn:Hc; [|now exists e].
  apply coerce_item_return in Hc. rewrite Hc in H. discriminate H.
Qed.

(** ** The loop *)

Section Loop.
Variable operation_name : string.

(** Valid items are passed over: their values are appended in order. *)
Lemma validate_items_valid_prefix (pre rest : list pyval) :
  forallb item_valid pre = true ->
  forall index integer_list,
    validate_items operation_name index (pre ++ rest) integer_list
    = validate_items operation_name (index + List.length pre) rest
        (integer_list ++ values pre).
Proof.
  induction pre as [|item pre IH]; intros Hv index integer_list.
  - cbn. now rewrite Nat.add_0_r, app_nil_r.
  - cbn in Hv. apply andb_prop in Hv as [Hi Hp].
    cbn [app validate_items]. rewrite (item_valid_value item Hi). cbn [bind].
    rewrite (IH Hp). cbn [List.length values map].
    rewrite <- app_assoc. cbn [app].
    now replace (S index + List.length pre)%nat
      with (index + S (List.length pre))%nat by lia.
Qed.

Lemma validate_items_all_valid (items : list pyval) :
  forallb item_valid items = true ->
  forall index integer_list,
    validate_items operation_name index items integer_list
    = Return (integer_list ++ values items).
Proof.
  intros Hv index integer_list.
  rewrite <- (app_nil_r items) at 1.
  now rewrite (validate_items_valid_prefix items [] Hv).
Qed.

(** The loop ends at the first item the body rejects, with the exception
    of the body; what follows the item is not looked at. *)
Lemma validate_items_first_invalid (pre post : list pyval) (item : pyval)
    (index : nat) (integer_list : list Z) (e : exc) :
  forallb item_valid pre = true ->
  coerce_item operation_name (index + List.length pre) item = Raise e ->
  validate_items operation_name index (pre ++ item :: post) integer_list
  = Raise e.
Proof.
  intros Hv He. rewrite (validate_items_valid_prefix pre _ Hv).
  cbn [validate_items]. now rewrite He.
Qed.

(** A list that passes the loop grows by one integer per item. *)
Lemma validate_items_length (items : list pyval) :
  forall index integer_list ns,
    validate_items operation_name index items integer_list = Return ns ->
    List.length ns = (List.length integer_list + List.length items)%nat.
Proof.
  induction items as [|item items IH]; intros index integer_list ns H.
  - cbn in H. injection H as <-. cbn. lia.
  - cbn [validate_items] in H.
    destruct (coerce_item operation_name index item) as [n|e]; [|discriminate H].
    cbn [bind] in H. apply IH in H. rewrite H, length_app. cbn. lia.
Qed.

(** Every item of a list that passes the loop is one the body accepts. *)
Lemma validate_items_return_valid (items : list pyval) :
  forall index integer_list ns,
    validate_items operation_name index items integer_list = Return ns ->
    forallb item_valid items = true.
Proof.
  induction items as [|item items IH]; intros index integer_list ns H.
  - reflexivity.
  - cbn [validate_items] in H.
    destruct (coerce_item operation_name index item) as [n|e] eqn:Hc;
      [|discriminate H].
    cbn [bind] in H. cbn [forallb].
    apply coerce_item_return in Hc. unfold item_valid at 1. rewrite Hc.
    exact (IH _ _ _ H).
Qed.
End Loop.

(** Any list splits at its first item that the loop body rejects. *)
Lemma first_invalid_split (items : list pyval) :
  forallb item_valid items = false ->
  exists pre item post,
    items = pre ++ item :: post
    /\ forallb item_valid pre = true /\ item_valid item = false.
Proof.
  induction items as [|x items IH]; intros H; [discriminate H|].
  cbn in H. destruct (item_valid x) eqn:Hx.
  - destruct (IH H) as (pre & item & post & -> & Hp & Hi).
    exists (x :: pre), item, post. cbn. now rewrite Hx, Hp.
  - exists [], x, items. now repeat split.
Qed.

(** ** The two validators *)

Lemma validate_input_list_not_list (data : pyval) (operation_name : string) :
  isinstance_list data = false ->
  _validate_input_list data operation_name
  = raise TypeError (MsgNotList operation_name (type_name data)).
Proof. intros H. unfold _validate_input_list. now rewrite H. Qed.

Lemma validate_integer_list_not_list (data : pyval) (operation_name : string) :
  isinstance_list data = false ->
  _validate_integer_list data operation_name
  = raise TypeError (MsgNotList operation_name (type_name data)).
Proof.
  intros H. unfold _validate_integer_list.
  now rewrite (validate_input_list_not_list _ _ H).
Qed.

(** On a list that is not empty the validator is the loop. *)
Lemma validate_integer_list_nonempty (l : list pyval) (operation_name : string) :
  l <> [] ->
  _validate_integer_list (PList l) operation_name
  = validate_items operation_name 0 l [].
Proof.
  intros H. destruct l as [|x l]; [contradiction|]. reflexivity.
Qed.

Lemma validate_integer_list_empty (operation_name : string) :
  _validate_integer_list (PList []) operation_name
  = if (operation_name =? "soma")%string
    then raise ValueError (MsgListEmpty operation_name)
    else Return [].
Proof.
  unfold _validate_integer_list, _validate_input_list. cbn.
  destruct (operation_name =? "soma")%string; [reflexivity|].
  destruct (operation_name =? "média")%string; reflexivity.
Qed.

(** ** What the validator can raise *)

(** The exception [int] raises on an infinity. *)
Definition infinity_error : exc :=
  Exc OverflowError (MsgBuiltin "cannot convert float infinity to integer").

(** [item] is a float or a string whose float is an infinity. *)
Definition item_infinite (item : pyval) : bool :=
  isinstance_float_str item
  && match py_float item with
     | Return (S754_infinity _) => true
     | _ => false
     end.

(** The exceptions of the loop body: a [ValueError] that names the position
    of the item, with any of the element messages but the one of the lossy
    conversion, or the [OverflowError] of [int] on an infinity. *)
Lemma coerce_item_raise_inv (operation_name : string) (index : nat)
    (item : pyval) (e : exc) :
  coerce_item operation_name index item = Raise e ->
  (item_infinite item = false
   /\ exc_cls e = ValueError
   /\ msg_position (exc_msg e) = Some (index + 1)%nat
   /\ forall pos it, exc_msg e <> MsgElemLossy operation_name pos it)
  \/ (item_infinite item = true /\ e = infinity_error).
Proof.
  intros H. destruct item as [|b|k|f|s|l|d]; try discriminate H.
  - left. cbn in H. injection H as <-. cbn. repeat split; discriminate.
  - rewrite (coerce_item_float_str operation_name index (PFloat f) f eq_refl eq_refl) in H.
    unfold item_infinite. cbn [isinstance_float_str py_float andb].
    destruct f as [sg|sg| |sg m e']; try (destruct (float_integral _));
      try discriminate H; injection H as <-;
      try (right; split; reflexivity);
      left; cbn; repeat split; discriminate.
  - unfold item_infinite. cbn [isinstance_float_str py_float andb].
    destruct (float_of_str s) as [f|e'] eqn:Hs.
    + rewrite (coerce_item_float_str operation_name index (PStr s) f eq_refl Hs) in H.
      destruct f as [sg|sg| |sg m e']; try (destruct (float_integral _));
        try discriminate H; injection H as <-;
        try (right; split; reflexivity);
        left; cbn; repeat split; discriminate.
    + rewrite (coerce_item_unparsable operation_name index s e' Hs) in H.
      injection H as <-. left. cbn. repeat split; discriminate.
  - left. cbn in H. injection H as <-. cbn. repeat split; discriminate.
  - left. cbn in H. injection H as <-. cbn. repeat split; discriminate.
Qed.

(** An exception of the loop is the exception of the body at the first item
    it rejects. *)
Lemma validate_items_raise_inv (operation_name : string) (items : list pyval) :
  forall index integer_list e,
    validate_items operation_name index items integer_list = Raise e ->
    exists pre item post,
      items = pre ++ item :: post
      /\ forallb item_valid pre = true
      /\ item_valid item = false
      /\ coerce_item operation_name (index + List.length pre) item = Raise e.
Proof.
  induction items as [|x items IH]; intros index integer_list e H;
    [discriminate H|].
  cbn [validate_items] in H.
  destruct (coerce_item operation_name index x) as [n|e'] eqn:Hc.
  - cbn [bind] in H. destruct (IH _ _ _ H) as (pre & item & post & -> & Hp & Hi & He).
    exists (x :: pre), item, post. cbn [app forallb List.length].
    apply coerce_item_return in Hc. unfold item_valid at 1. rewrite Hc.
    repeat split; trivial.
    now replace (index + S (List.length pre))%nat
      with (S index + List.length pre)%nat by lia.
  - cbn [bind] in H. injection H as <-.
    exists [], x, items. cbn. rewrite Nat.add_0_r. repeat split; trivial.
    unfold item_valid.
    destruct (item_value x) as [n|] eqn:Hv; [|reflexivity].
    rewrite (coerce_item_value x n Hv) in Hc. discriminate Hc.
Qed.

(** The exceptions of the validator, by the shape of its input. *)
Lemma validate_integer_list_raise_inv (data : pyval) (operation_name : string)
    (e : exc) :
  _validate_integer_list data operation_name = Raise e ->
  (isinstance_list data = false
   /\ e = Exc TypeError (MsgNotList operation_name (type_name data)))
  \/ (data = PList []
      /\ e = Exc ValueError (MsgListEmpty operation_name))
  \/ (exists pre item post,
        data = PList (pre ++ item :: post)
        /\ forallb item_valid pre = true
        /\ item_valid item = false
        /\ coerce_item operation_name (List.length pre) item = Raise e).
Proof.
  intros H. destruct (isinstance_list data) eqn:Hl.
  - destruct data as [| | | | |l|]; try discriminate Hl.
    destruct l as [|x l].
    + rewrite validate_integer_list_empty in H.
      destruct (operation_name =? "soma")%string; [|discriminate H].
      injection H as <-. right; left. now split.
    + rewrite validate_integer_list_nonempty in H by discriminate.
      right; right.
      destruct (validate_items_raise_inv _ _ _ _ _ H)
        as (pre & item & post & Heq & Hp & Hi & Hc).
      exists pre, item, post. rewrite Heq. now repeat split.
  - rewrite (validate_integer_list_not_list _ _ Hl) in H. injection H as <-.
    left. now split.
Qed.

(** The message of the lossy conversion is never the one that reaches the
    caller: the [ValueError] carrying it is raised inside the [try] block
    and replaced by the handler of that block. *)
Lemma lossy_message_never_raised (data : pyval) (operation_name : string)
    (e : exc) (pos : nat) (it : pyval) :
  _validate_integer_list data operation_name = Raise e ->
  exc_msg e <> MsgElemLossy operation_name pos it.
Proof.
  intros H. apply validate_integer_list_raise_inv in H
    as [[_ ->]|[[_ ->]|(pre & item & post & _ & _ & _ & Hc)]];
    try discriminate.
  apply coerce_item_raise_inv in Hc as [(_ & _ & _ & Hl)|[_ ->]];
    [apply Hl|discriminate].
Qed.

(** The message about a [None] list is never raised: [None] is not a list,
    so the test before it has already raised. *)
Lemma none_message_never_raised (data : pyval) (operation_name : string)
    (e : exc) :
  _validate_input_list data operation_name = Raise e ->
  exc_msg e <> MsgListNone operation_name.
Proof.
  unfold _validate_input_list.
  destruct data as [| | | | |l|]; cbn; intros H;
    try (injection H as <-; discriminate).
  destruct l; cbn in H;
    destruct (operation_name =? "soma")%string; cbn in H;
    try (injection H as <-; discriminate);
    destruct (operation_name =? "média")%string; discriminate H.
Qed.

(** ** Lists of ints *)

Lemma py_sum_from (l : list Z) :
  forall a, fold_left Z.add l a = a + Zsum l.
Proof.
  induction l as [|x l IH]; intros a.
  - cbn. lia.
  - change (fold_left Z.add l (a + x) = a + (x + Zsum l)).
    rewrite IH. lia.
Qed.

Lemma py_sum_Zsum (l : list Z) : py_sum l = Zsum l.
Proof. unfold py_sum. now rewrite py_sum_from. Qed.

Lemma Zsum_Permutation (l l' : list Z) :
  Permutation l l' -> Zsum l = Zsum l'.
Proof.
  induction 1 as [|x l l' _ IH|x y l|l l' l'' _ IH1 _ IH2].
  - reflexivity.
  - change (x + Zsum l = x + Zsum l'). lia.
  - change (y + (x + Zsum l) = x + (y + Zsum l)). lia.
  - lia.
Qed.

Lemma ints_valid (l : list Z) : forallb item_valid (map PInt l) = true.
Proof. induction l as [|x l IH]; [reflexivity|exact IH]. Qed.

Lemma ints_values (l : list Z) : values (map PInt l) = l.
Proof.
  induction l as [|x l IH]; [reflexivity|]. cbn. f_equal. exact IH.
Qed.

Lemma validate_integer_list_ints (l : list Z) (operation_name : string) :
  l <> [] ->
  _validate_integer_list (PList (map PInt l)) operation_name = Return l.
Proof.
  intros H. rewrite validate_integer_list_nonempty
    by (destruct l; [contradiction|discriminate]).
  rewrite (validate_items_all_valid _ _ (ints_valid l)).
  now rewrite ints_values.
Qed.

(** ** The empty list *)

(** C3: [sum_numbers([])] raises the [ValueError] saying that the list must
    not be empty, [calculate_average([])] returns [None], and the empty list
    is the only input on which [calculate_average] returns [None]: on every
    other input it returns a float or raises. *)
Theorem C3_empty_input_policy :
  sum_numbers (PList []) = raise ValueError (MsgListEmpty "soma")
  /\ calculate_average (PList []) = Return None
  /\ forall numeros : pyval,
       calculate_average numeros = Return None <-> numeros = PList [].
Proof.
  split; [reflexivity|]. split; [reflexivity|].
  intros numeros. split; [|intros ->; reflexivity].
  intros H. unfold calculate_average in H.
  destruct (isinstance_list numeros) eqn:Hl.
  - destruct numeros as [| | | | |l|]; try discriminate Hl.
    destruct l as [|x l]; [reflexivity|exfalso].
    rewrite validate_integer_list_nonempty in H by discriminate.
    destruct (validate_items "média" 0 (x :: l) []) as [ns|e] eqn:Hv.
    + apply validate_items_length in Hv.
      destruct ns as [|n ns]; [discriminate Hv|].
      cbn [bind list_nonempty negb] in H.
      destruct (int_truediv _ _) as [f|e]; cbn in H; [discriminate H|].
      destruct (exc_class_eqb _ _ || _); discriminate H.
    + cbn in H. destruct (exc_class_eqb _ _ || _); discriminate H.
  - rewrite (validate_integer_list_not_list _ _ Hl) in H. discriminate H.
Qed.

(** ** The sum *)

(** C4: on a non-empty list of ints [sum_numbers] returns their arithmetic
    sum, an int; a permutation of the list gives the same result; and
    [sum_numbers([1,2,3,4])] is 10. *)
Theorem C4_sum_exact_and_order_independent (l l' : list Z) :
  l <> [] ->
  Permutation l l' ->
  sum_numbers (PList (map PInt l)) = Return (Zsum l)
  /\ sum_numbers (PList (map PInt l')) = sum_numbers (PList (map PInt l))
  /\ sum_numbers (PList [PInt 1; PInt 2; PInt 3; PInt 4]) = Return 10.
Proof.
  intros Hne Hperm.
  assert (Hsum : forall k : list Z, k <> [] ->
            sum_numbers (PList (map PInt k)) = Return (Zsum k)).
  { intros k Hk. unfold sum_numbers.
    rewrite (validate_integer_list_ints k "soma" Hk). cbn [bind].
    destruct k as [|x k]; [contradiction|]. cbn [list_nonempty negb try_reraise].
    now rewrite py_sum_Zsum. }
  assert (Hne' : l' <> []).
  { intros ->. apply Permutation_sym, Permutation_nil in Hperm. contradiction. }
  split; [now apply Hsum|]. split; [|reflexivity].
  rewrite (Hsum l Hne), (Hsum l' Hne'). f_equal.
  symmetry. now apply Zsum_Permutation.
Qed.

Lemma C4_sum_witness :
  sum_numbers (PList (map PInt [3; 1; 2])) = Return (Zsum [3; 1; 2])
  /\ sum_numbers (PList (map PInt [1; 2; 3])) = sum_numbers (PList (map PInt [3; 1; 2]))
  /\ sum_numbers (PList [PInt 1; PInt 2; PInt 3; PInt 4]) = Return 10.
Proof.
  apply (C4_sum_exact_and_order_independent [3; 1; 2] [1; 2; 3]).
  - discriminate.
  - apply perm_trans with (l' := [1; 3; 2]).
    + apply perm_swap.
    + apply perm_skip, perm_swap.
Defined.

(** ** The average *)

(** 2.5, that is [5 * 2^50 * 2^-51]. *)
Definition float_2_5 : pyfloat := S754_finite false 5629499534213120 (-51).


(** 0.0 *)
Definition float_0_0 : pyfloat := S754_zero false.

Example float_2_5_parsed : float_of_str "2.5" = Return float_2_5.
Proof. vm_compute. reflexivity. Qed.

Example float_0_0_parsed : float_of_str "0.0" = Return float_0_0.
Proof. vm_compute. reflexivity. Qed.

(** On small operands the quotient of two ints is the IEEE 754 quotient of
    the two floats they convert to. *)
Example int_truediv_10_4 :
  int_truediv 10 4
  = Return (SFdiv prec emax (binary_normalize prec emax 10 0 false)
                            (binary_normalize prec emax 4 0 false)).
Proof. vm_compute. reflexivity. Qed.






(** ** Inputs that are not lists *)



(** C7: [None] is not a list, so the first test of [_validate_input_list]
    raises the [TypeError] naming the type [NoneType]; the [ValueError] about
    a [None] list, which stands behind that test, is not raised, by either
    validator and for either operation. *)
Theorem C7_None_input_raises_type_error (operation_name : string) :
  _validate_input_list PNone operation_name
  = raise TypeError (MsgNotList operation_name "NoneType")
  /\ _validate_integer_list PNone operation_name
     = raise TypeError (MsgNotList operation_name "NoneType")
  /\ sum_numbers PNone = raise TypeError (MsgNotList "soma" "NoneType")
  /\ calculate_average PNone = raise TypeError (MsgNotList "média" "NoneType").
Proof. repeat split. Qed.

(** ** Elements of other types *)





(** ** Floats and strings with a fractional part *)

(** 3.5, that is [7 * 2^50 * 2^-51]. *)
Definition float_3_5 : pyfloat := S754_finite false 7881299347898368 (-51).

Example float_3_5_parsed : float_of_str "3.5" = Return float_3_5.
Proof. vm_compute. reflexivity. Qed.




(** The float 3.5 and the string "2.5" are rejected with the message of the
    handler of the [try] block. *)
Example fractional_float_message :
  _validate_integer_list (PList [PFloat float_3_5]) "soma"
  = raise ValueError (MsgElemNotConvertible "soma" 1 (PFloat float_3_5)).
Proof. vm_compute. reflexivity. Qed.

Example fractional_string_message :
  sum_numbers (PList [PInt 1; PInt 2; PStr "2.5"; PInt 4])
  = raise ValueError (MsgElemNotConvertible "soma" 3 (PStr "2.5")).
Proof. vm_compute. reflexivity. Qed.

(** ** Floats and strings with an integer value *)





(** The strings "5" and "5.0" and the float 3.0 are accepted as 5, 5 and 3. *)
Example integral_examples :
  _validate_integer_list
    (PList [PStr "5"; PStr "5.0"; PFloat (S754_finite false 6755399441055744 (-51))])
    "soma"
  = Return [5; 5; 3].
Proof. vm_compute. reflexivity. Qed.


(** ** The first invalid element *)

(** The validator stops at the first item the loop body rejects: it raises
    the exception of the body at that item, whatever follows the item, and
    returns no list.  Unless the item is an infinity, the exception is a
    [ValueError] naming the 1-based position of the item. *)
Lemma fail_fast_first_invalid (pre post : list pyval) (item : pyval)
    (operation_name : string) :
  forallb item_valid pre = true ->
  item_valid item = false ->
  exists e : exc,
    (forall post' : list pyval,
       _validate_integer_list (PList (pre ++ item :: post')) operation_name
       = Raise e)
    /\ coerce_item operation_name (List.length pre) item = Raise e
    /\ (item_infinite item = false ->
        exc_cls e = ValueError
        /\ msg_position (exc_msg e) = Some (List.length pre + 1)%nat)
    /\ (item_infinite item = true -> e = infinity_error).
Proof.
  intros Hp Hi.
  destruct (item_invalid_raises operation_name (List.length pre) item Hi)
    as [e He].
  exists e. split; [|split; [exact He|]].
  - intros post'.
    rewrite validate_integer_list_nonempty by (destruct pre; discriminate).
    now apply validate_items_first_invalid.
  - apply coerce_item_raise_inv in He as [(Hn & Hc & Hpos & _)|[Hinf ->]].
    + split; [intros _; now split|]. rewrite Hn. discriminate.
    + split; [|reflexivity]. rewrite Hinf. discriminate.
Qed.

Example fail_fast_example :
  sum_numbers (PList [PInt 1; PInt 2; PStr "2.5"; PInt 4])
  = sum_numbers (PList [PInt 1; PInt 2; PStr "2.5"; PNone; PStr "x"]).
Proof. vm_compute. reflexivity. Qed.

(** C9: when the first invalid item of a list is an infinity, here the
    string "inf" at position 2, the validator raises the [OverflowError] of
    [int], whose message names no position. *)
Theorem C9_infinity_names_no_position :
  item_valid (PStr "inf") = false
  /\ _validate_integer_list (PList [PInt 1; PStr "inf"; PInt 3]) "soma"
     = Raise infinity_error
  /\ exc_cls infinity_error = OverflowError
  /\ msg_position (exc_msg infinity_error) = None.
Proof. vm_compute. repeat split. Qed.

(** ** The exceptions that leave the validator *)

(** The validator returns a list of ints or raises a [TypeError], a
    [ValueError] or the [OverflowError] of [int] on an infinity; the last is
    raised exactly when the first invalid item of the list is an infinity. *)
Lemma validate_integer_list_outcomes (data : pyval) (operation_name : string) :
  (exists ns : list Z, _validate_integer_list data operation_name = Return ns)
  \/ (exists e : exc,
        _validate_integer_list data operation_name = Raise e
        /\ (exc_cls e = TypeError \/ exc_cls e = ValueError
            \/ e = infinity_error)).
Proof.
  destruct (_validate_integer_list data operation_name) as [ns|e] eqn:H.
  - left. now exists ns.
  - right. exists e. split; [reflexivity|].
    apply validate_integer_list_raise_inv in H
      as [[_ ->]|[[_ ->]|(pre & item & post & _ & _ & _ & Hc)]].
    + now left.
    + right; now left.
    + apply coerce_item_raise_inv in Hc as [(_ & Hcls & _)|[_ ->]].
      * right; now left.
      * right; now right.
Qed.

(** C10: on a list with the string "inf" or "-inf", or with a float that is
    an infinity, the validator raises [OverflowError], which is neither a
    [TypeError] nor a [ValueError]; the exception leaves [sum_numbers] and
    [calculate_average] too. *)
Theorem C10_overflow_error_escapes :
  _validate_integer_list (PList [PStr "inf"]) "soma" = Raise infinity_error
  /\ _validate_integer_list (PList [PStr "-inf"]) "média" = Raise infinity_error
  /\ _validate_integer_list (PList [PFloat (S754_infinity false)]) "soma"
     = Raise infinity_error
  /\ sum_numbers (PList [PStr "inf"]) = Raise infinity_error
  /\ calculate_average (PList [PStr "-inf"]) = Raise infinity_error
  /\ exc_cls infinity_error <> TypeError
  /\ exc_cls infinity_error <> ValueError.
Proof. vm_compute. repeat split; discriminate. Qed.

(** ** The cases of tests/test_lib_calc_numbers.py *)

(** 3.0, that is [3 * 2^51 * 2^-51]. *)
Definition float_3_0 : pyfloat := S754_finite false 6755399441055744 (-51).

(** 10.0, that is [5 * 2^50 * 2^-49]. *)
Definition float_10_0 : pyfloat := S754_finite false 5629499534213120 (-49).

Example soma_strings_numericas_validas :
  sum_numbers (PList [PStr "5"; PStr "10"; PStr "15"]) = Return 30.
Proof. vm_compute. reflexivity. Qed.

Example soma_tipo_invalido_string :
  sum_numbers (PStr "nao_eh_lista")
  = raise TypeError (MsgNotList "soma" "str").
Proof. reflexivity. Qed.

Example soma_lista_com_string :
  sum_numbers (PList [PInt 1; PInt 2; PStr "a"; PInt 4])
  = raise ValueError (MsgElemNotConvertible "soma" 3 (PStr "a")).
Proof. vm_compute. reflexivity. Qed.

Example soma_lista_com_float_sem_perda :
  sum_numbers (PList [PInt 1; PInt 2; PFloat float_3_0; PInt 4]) = Return 10.
Proof. vm_compute. reflexivity. Qed.

Example soma_lista_com_float_com_perda :
  sum_numbers (PList [PInt 1; PInt 2; PFloat float_3_5; PInt 4])
  = raise ValueError (MsgElemNotConvertible "soma" 3 (PFloat float_3_5)).
Proof. vm_compute. reflexivity. Qed.

Example soma_lista_com_none :
  sum_numbers (PList [PInt 1; PInt 2; PNone; PInt 4])
  = raise ValueError (MsgElemNone "soma" 3).
Proof. reflexivity. Qed.

Example media_strings_numericas_validas :
  calculate_average (PList [PStr "5"; PStr "10"; PStr "15"])
  = Return (Some float_10_0).
Proof. vm_compute. reflexivity. Qed.

Example media_lista_com_float_sem_perda :
  calculate_average (PList [PInt 1; PInt 2; PFloat float_3_0; PInt 4])
  = Return (Some float_2_5).
Proof. vm_compute. reflexivity. Qed.

Example media_lista_com_none :
  calculate_average (PList [PInt 1; PInt 2; PNone; PInt 4])
  = raise ValueError (MsgElemNone "média" 3).
Proof. reflexivity. Qed.

(** * Further properties of the library *)

(** ** Which items the loop body accepts *)


(** ** The validated list *)

(** A list the validator returns is the list of the values of the items,
    all of them valid. *)
Lemma validated_list_values (l : list pyval) (operation_name : string)
    (ns : list Z) :
  _validate_integer_list (PList l) operation_name = Return ns ->
  forallb item_valid l = true /\ ns = values l.
Proof.
  intros H. destruct l as [|x l].
  - rewrite validate_integer_list_empty in H.
    destruct (operation_name =? "soma")%string; [discriminate H|].
    injection H as <-. now split.
  - rewrite validate_integer_list_nonempty in H by discriminate.
    pose proof (validate_items_return_valid _ _ _ _ _ H) as Hv.
    rewrite (validate_items_all_valid _ _ Hv) in H. injection H as <-.
    now split.
Qed.

(** X2: when the validator returns, the list it returns has the length of
    the input list and holds, at each place, the integer the loop body
    gives for the item at that place: order and length are kept. *)
Theorem X2_validated_list_keeps_order (l : list pyval)
    (operation_name : string) (ns : list Z) :
  _validate_integer_list (PList l) operation_name = Return ns ->
  ns = values l
  /\ List.length ns = List.length l
  /\ forall (i : nat) (item : pyval),
       nth_error l i = Some item ->
       exists n : Z, item_value item = Some n /\ nth_error ns i = Some n.
Proof.
  intros H.
  destruct (validated_list_values _ _ _ H) as [Hv ->]. split; [reflexivity|].
  split; [unfold values; now rewrite length_map|].
  intros i item Hi.
  assert (Hin : In item l) by (eapply nth_error_In; eassumption).
  rewrite forallb_forall in Hv. specialize (Hv item Hin).
  unfold item_valid in Hv.
  destruct (item_value item) as [n|] eqn:Hn; [|discriminate Hv].
  exists n. split; [reflexivity|].
  unfold values. rewrite nth_error_map, Hi. cbn. now rewrite Hn.
Qed.

Lemma X2_validated_list_witness :
  [1; 5; 3] = values [PBool true; PStr "5.0"; PInt 3]
  /\ List.length [1; 5; 3] = List.length [PBool true; PStr "5.0"; PInt 3]
  /\ forall (i : nat) (item : pyval),
       nth_error [PBool true; PStr "5.0"; PInt 3] i = Some item ->
       exists n : Z, item_value item = Some n /\ nth_error [1; 5; 3] i = Some n.
Proof.
  apply (X2_validated_list_keeps_order
           [PBool true; PStr "5.0"; PInt 3] "média" [1; 5; 3]).
  vm_compute. reflexivity.
Defined.

(** X3: validating again what the validator returned changes nothing: the
    list of ints it returns is itself a valid input, for the same operation,
    and is returned as it is. *)
Theorem X3_validation_idempotent (data : pyval) (operation_name : string)
    (ns : list Z) :
  _validate_integer_list data operation_name = Return ns ->
  _validate_integer_list (PList (map PInt ns)) operation_name = Return ns.
Proof.
  intros H. destruct ns as [|n ns].
  - destruct (isinstance_list data) eqn:Hl.
    + destruct data as [| | | | |l|]; try discriminate Hl.
      destruct (validated_list_values _ _ _ H) as [_ Hval].
      destruct l; [exact H|discriminate Hval].
    + rewrite (validate_integer_list_not_list _ _ Hl) in H. discriminate H.
  - apply validate_integer_list_ints. discriminate.
Qed.

Lemma X3_validation_witness :
  _validate_integer_list (PList (map PInt [1; 5; 3])) "soma" = Return [1; 5; 3].
Proof.
  apply (X3_validation_idempotent
           (PList [PBool true; PStr "5.0"; PInt 3]) "soma" [1; 5; 3]).
  vm_compute. reflexivity.
Defined.

(** ** Elements that are rejected *)

(** X4: a [None] item, with only valid items before it, makes the validator
    raise the [ValueError] saying that the element at its 1-based position
    must not be [None], whatever follows it. *)
Theorem X4_None_element (pre post : list pyval) (operation_name : string) :
  forallb item_valid pre = true ->
  _validate_integer_list (PList (pre ++ PNone :: post)) operation_name
  = raise ValueError (MsgElemNone operation_name (List.length pre + 1)).
Proof.
  intros Hp.
  rewrite validate_integer_list_nonempty by (destruct pre; discriminate).
  now apply validate_items_first_invalid.
Qed.

Lemma X4_None_element_witness :
  _validate_integer_list (PList ([PInt 1; PInt 2] ++ PNone :: [PInt 4])) "soma"
  = raise ValueError (MsgElemNone "soma" (List.length [PInt 1; PInt 2] + 1)).
Proof.
  apply (X4_None_element [PInt 1; PInt 2] [PInt 4] "soma"). reflexivity.
Defined.





(** X7: no exception that leaves the validator, [sum_numbers] or
    [calculate_average] carries the message of the lossy conversion, for
    any input: the [ValueError] built with it is raised inside the [try]
    block whose handler catches [ValueError] and raises another one. *)
Theorem X7_lossy_message_unreachable (data : pyval) (operation_name : string)
    (e : exc) (op : string) (pos : nat) (it : pyval) :
  _validate_integer_list data operation_name = Raise e
  \/ sum_numbers data = Raise e
  \/ calculate_average data = Raise e ->
  exc_msg e <> MsgElemLossy op pos it.
Proof.
  assert (Hv : forall o, _validate_integer_list data o = Raise e ->
                 exc_msg e <> MsgElemLossy op pos it).
  { intros o H. apply validate_integer_list_raise_inv in H
      as [[_ ->]|[[_ ->]|(pre & item & post & _ & _ & _ & Hc)]];
      try discriminate.
    destruct item as [|b|k|f|s|l|d]; try discriminate Hc.
    - injection Hc as <-. discriminate.
    - rewrite (coerce_item_float_str o _ (PFloat f) f eq_refl eq_refl) in Hc.
      destruct f; try (destruct (float_integral _)); try discriminate Hc;
        injection Hc as <-; discriminate.
    - destruct (float_of_str s) as [f|e'] eqn:Hs.
      + rewrite (coerce_item_float_str o _ (PStr s) f eq_refl Hs) in Hc.
        destruct f; try (destruct (float_integral _)); try discriminate Hc;
          injection Hc as <-; discriminate.
      + rewrite (coerce_item_unparsable o _ s e' Hs) in Hc.
        injection Hc as <-. discriminate.
    - injection Hc as <-. discriminate.
    - injection Hc as <-. discriminate. }
  intros [H|[H|H]].
  - exact (Hv _ H).
  - unfold sum_numbers in H.
    destruct (_validate_integer_list data "soma") as [ns|e'] eqn:Hd.
    + cbn [bind] in H. destruct ns; cbn in H; [|discriminate H].
      injection H as <-. discriminate.
    + cbn in H. apply (Hv "soma").
      destruct (exc_class_eqb _ _ || _); congruence.
  - unfold calculate_average in H.
    destruct (_validate_integer_list data "média") as [ns|e'] eqn:Hd.
    + cbn [bind] in H. destruct ns; cbn [list_nonempty negb] in H;
        [discriminate H|].
      unfold int_truediv in H.
      destruct (_ =? 0); [cbn in H; injection H as <-; discriminate|].
      destruct (round_quotient _ _ _); cbn in H; try discriminate H.
      injection H as <-. discriminate.
    + cbn in H. apply (Hv "média").
      destruct (exc_class_eqb _ _ || _); congruence.
Qed.

Lemma X7_lossy_message_witness :
  exc_msg (Exc ValueError (MsgElemNotConvertible "soma" 1 (PStr "2.5")))
  <> MsgElemLossy "soma" 1 (PStr "2.5").
Proof.
  apply (X7_lossy_message_unreachable (PList [PStr "2.5"]) "soma"
           (Exc ValueError (MsgElemNotConvertible "soma" 1 (PStr "2.5")))
           "soma" 1%nat (PStr "2.5")).
  left. vm_compute. reflexivity.
Defined.

(** ** The sum and the average of valid lists *)


Lemma validate_integer_list_valid (l : list pyval) (operation_name : string) :
  l <> [] ->
  forallb item_valid l = true ->
  _validate_integer_list (PList l) operation_name = Return (values l).
Proof.
  intros Hne Hv. rewrite validate_integer_list_nonempty by exact Hne.
  now rewrite (validate_items_all_valid _ _ Hv).
Qed.

(** The validator for the sum never returns the empty list. *)
Lemma validate_soma_nonempty (data : pyval) (ns : list Z) :
  _validate_integer_list data "soma" = Return ns -> ns <> [].
Proof.
  intros H. destruct (isinstance_list data) eqn:Hl.
  - destruct data as [| | | | |l|]; try discriminate Hl.
    destruct l as [|x l]; [discriminate H|].
    apply validated_list_values in H as [_ ->]. discriminate.
  - rewrite (validate_integer_list_not_list _ _ Hl) in H. discriminate H.
Qed.



Lemma sum_numbers_bind (data : pyval) :
  sum_numbers data
  = (ns <- _validate_integer_list data "soma" ;; Return (Zsum ns)).
Proof.
  unfold sum_numbers.
  destruct (_validate_integer_list data "soma") as [ns|e] eqn:H; cbn [bind].
  - pose proof (validate_soma_nonempty _ _ H) as Hne.
    destruct ns as [|n ns]; [contradiction|].
    cbn [list_nonempty negb try_reraise]. now rewrite py_sum_Zsum.
  - cbn. now destruct (exc_class_eqb _ _ || _).
Qed.

(** X9: [sum_numbers] is the validator for "soma" followed by the sum: it
    returns the sum of the validated list when the validator returns, and
    raises the exception of the validator, unchanged, when it raises.  Its
    own test for an empty list never raises, since the validator has
    already rejected the empty list. *)
Theorem X9_sum_numbers_is_validator_then_sum (data : pyval) :
  sum_numbers data
  = (ns <- _validate_integer_list data "soma" ;; Return (Zsum ns)).
Proof. exact (sum_numbers_bind data). Qed.

(** X10: whenever [sum_numbers] returns [n] for an input, the input is a
    non-empty list and [calculate_average] of the same input is the true
    division of [n] by the length of the list: the float nearest to the
    quotient, or the [OverflowError] of the division. *)
Theorem X10_average_is_sum_over_count (data : pyval) (n : Z) :
  sum_numbers data = Return n ->
  exists l : list pyval,
    data = PList l /\ l <> []
    /\ calculate_average data
       = (f <- int_truediv n (py_len l) ;; Return (Some f)).
Proof.
  intros H. rewrite sum_numbers_bind in H.
  destruct (_validate_integer_list data "soma") as [ns|e] eqn:Hv;
    [|discriminate H].
  cbn [bind] in H. injection H as <-.
  destruct (isinstance_list data) eqn:Hl;
    [|rewrite (validate_integer_list_not_list _ _ Hl) in Hv; discriminate Hv].
  destruct data as [| | | | |l|]; try discriminate Hl.
  destruct l as [|x l]; [discriminate Hv|].
  exists (x :: l). split; [reflexivity|]. split; [discriminate|].
  rewrite validate_integer_list_nonempty in Hv by discriminate.
  pose proof (validate_items_return_valid _ _ _ _ _ Hv) as Hall.
  rewrite (validate_items_all_valid _ _ Hall) in Hv. injection Hv as <-.
  unfold calculate_average.
  rewrite (validate_integer_list_valid (x :: l) "média") by (discriminate || exact Hall).
  cbn [bind app]. cbn [values map list_nonempty negb].
  rewrite py_sum_Zsum.
  replace (py_len (_ :: map _ l)) with (py_len (x :: l))
    by (unfold py_len; cbn [List.length]; now rewrite length_map).
  cbn [values map].
  destruct (int_truediv _ _) as [f|e]; cbn; [reflexivity|].
  now destruct (exc_class_eqb _ _ || _).
Qed.

Lemma X10_average_witness :
  exists l : list pyval,
    PList [PStr "5"; PInt 10; PInt 15] = PList l /\ l <> []
    /\ calculate_average (PList [PStr "5"; PInt 10; PInt 15])
       = (f <- int_truediv 30 (py_len l) ;; Return (Some f)).
Proof.
  apply (X10_average_is_sum_over_count (PList [PStr "5"; PInt 10; PInt 15]) 30).
  vm_compute. reflexivity.
Defined.

(** X11: on a non-empty list the operation name is used for the message
    only: under two names the validator returns the same list, or raises
    exceptions of the same class that name the same position. *)
Theorem X11_operation_name_only_in_message (l : list pyval)
    (operation_name operation_name' : string) :
  l <> [] ->
  match _validate_integer_list (PList l) operation_name,
        _validate_integer_list (PList l) operation_name' with
  | Return ns, Return ns' => ns = ns'
  | Raise e, Raise e' =>
      exc_cls e = exc_cls e'
      /\ msg_position (exc_msg e) = msg_position (exc_msg e')
  | _, _ => False
  end.
Proof.
  intros Hne. destruct (forallb item_valid l) eqn:Hv.
  - now rewrite !(validate_integer_list_valid l _ Hne Hv).
  - destruct (first_invalid_split l Hv) as (pre & item & post & -> & Hp & Hi).
    destruct (fail_fast_first_invalid pre post item operation_name Hp Hi)
      as (e & He & _ & Hfin & Hinf).
    destruct (fail_fast_first_invalid pre post item operation_name' Hp Hi)
      as (e' & He' & _ & Hfin' & Hinf').
    rewrite (He post), (He' post).
    destruct (item_infinite item).
    + now rewrite (Hinf eq_refl), (Hinf' eq_refl).
    + destruct (Hfin eq_refl) as [-> ->]. destruct (Hfin' eq_refl) as [-> ->].
      now split.
Qed.

Lemma X11_operation_name_witness :
  match _validate_integer_list (PList [PInt 1; PStr "x"]) "soma",
        _validate_integer_list (PList [PInt 1; PStr "x"]) "média" with
  | Return ns, Return ns' => ns = ns'
  | Raise e, Raise e' =>
      exc_cls e = exc_cls e'
      /\ msg_position (exc_msg e) = msg_position (exc_msg e')
  | _, _ => False
  end.
Proof.
  apply (X11_operation_name_only_in_message [PInt 1; PStr "x"] "soma" "média").
  discriminate.
Defined.

(** ** The float of an average *)

Lemma shr_1_nonneg (mrs : shr_record) :
  0 <= shr_m mrs -> 0 <= shr_m (shr_1 mrs).
Proof.
  destruct mrs as [m r s]. destruct m as [|p|p]; cbn; intros H.
  - lia.
  - destruct p; cbn; lia.
  - lia.
Qed.

Lemma iter_pos_invariant {A : Type} (P : A -> Prop) (f : A -> A) :
  (forall x, P x -> P (f x)) ->
  forall (p : positive) (x : A), P x -> P (iter_pos f p x).
Proof.
  intros Hf. induction p as [p IH|p IH|]; intros x Hx; cbn.
  - apply IH, IH, Hf, Hx.
  - apply IH, IH, Hx.
  - apply Hf, Hx.
Qed.

Lemma shr_fexp_nonneg (m e : Z) (l : location) :
  0 <= m -> 0 <= shr_m (fst (shr_fexp prec emax m e l)).
Proof.
  intros Hm. unfold shr_fexp, shr.
  assert (H0 : 0 <= shr_m (shr_record_of_loc m l))
    by (destruct l as [|[]]; exact Hm).
  destruct (fexp prec emax (Zdigits2 m + e) - e) as [|p|p]; cbn [fst];
    try exact H0.
  apply (iter_pos_invariant (fun r => 0 <= shr_m r)); [|exact H0].
  exact shr_1_nonneg.
Qed.

Lemma round_nearest_even_nonneg (m : Z) (l : location) :
  0 <= m -> 0 <= round_nearest_even m l.
Proof.
  intros Hm. unfold round_nearest_even.
  destruct l as [|[]]; try destruct (Z.even m); lia.
Qed.

(** Rounding a quotient of a number that is not negative by a positive
    number never gives NaN. *)
Lemma round_quotient_not_nan (s : bool) (num den : Z) :
  0 <= num -> 0 < den -> round_quotient s num den <> S754_nan.
Proof.
  intros Hn Hd. unfold round_quotient.
  destruct (num =? 0); [discriminate|].
  unfold SFdiv_core_binary.
  set (sh := _ - _ - Z.min _ _).
  set (m' := match sh with Z0 => num | Zpos _ => Z.shiftl num sh | Zneg _ => 0 end).
  assert (Hm' : 0 <= m').
  { subst m'. destruct sh; try lia. now apply Z.shiftl_nonneg. }
  pose proof (Z_div_mod m' den ltac:(lia)) as Hdm.
  destruct (Z.div_eucl m' den) as [q r]. destruct Hdm as [Heq Hr].
  assert (Hq : 0 <= q) by nia.
  unfold binary_round_aux.
  pose proof (shr_fexp_nonneg q (Z.min (fexp prec emax (Zdigits2 num + 0 - (Zdigits2 den + 0))) (0 - 0))
                (new_location den r) Hq) as H1.
  destruct (shr_fexp prec emax q _ (new_location den r)) as [mrs1 e1].
  cbn [fst] in H1.
  pose proof (shr_fexp_nonneg _ e1 loc_Exact
                (round_nearest_even_nonneg _ (loc_of_shr_record mrs1) H1)) as H2.
  destruct (shr_fexp prec emax _ e1 loc_Exact) as [mrs2 e2].
  cbn [fst] in H2.
  destruct (shr_m mrs2) as [|p|p]; try discriminate; [|lia].
  destruct (e2 <=? emax - prec); discriminate.
Qed.

(** X12: a float that [calculate_average] returns is finite: the average is
    [None], a finite float or an exception, never NaN or an infinity. *)
Theorem X12_average_is_finite (data : pyval) (f : pyfloat) :
  calculate_average data = Return (Some f) -> float_finite f = true.
Proof.
  unfold calculate_average. intros H.
  destruct (_validate_integer_list data "média") as [ns|e];
    [|cbn in H; destruct (exc_class_eqb _ _ || _); discriminate H].
  cbn [bind] in H. destruct ns as [|n ns]; [discriminate H|].
  cbn [list_nonempty negb] in H. unfold int_truediv in H.
  assert (Hlen : 0 < py_len (n :: ns))
    by (unfold py_len; cbn [List.length]; lia).
  destruct (py_len (n :: ns) =? 0) eqn:Hz; [lia|].
  pose proof (round_quotient_not_nan
                (xorb (py_sum (n :: ns) <? 0) (py_len (n :: ns) <? 0))
                (Z.abs (py_sum (n :: ns))) (Z.abs (py_len (n :: ns)))
                ltac:(lia) ltac:(lia)) as Hnan.
  destruct (round_quotient _ _ _) as [sg|sg| |sg m e]; cbn in H;
    try discriminate H; try contradiction; injection H as <-; reflexivity.
Qed.

Lemma X12_average_is_finite_witness : float_finite float_2_5 = true.
Proof.
  apply (X12_average_is_finite (PList [PInt 1; PInt 2; PInt 3; PInt 4]) float_2_5).
  vm_compute. reflexivity.
Defined.

(** ** Sums of concatenated lists *)

Lemma values_app (l1 l2 : list pyval) :
  values (l1 ++ l2) = values l1 ++ values l2.
Proof. unfold values. apply map_app. Qed.

Lemma Zsum_app (l1 l2 : list Z) : Zsum (l1 ++ l2) = Zsum l1 + Zsum l2.
Proof.
  induction l1 as [|x l1 IH]; [reflexivity|].
  change (x + Zsum (l1 ++ l2) = x + Zsum l1 + Zsum l2). lia.
Qed.

(** What [sum_numbers] returns, and on which inputs. *)
Lemma sum_numbers_return_inv (data : pyval) (n : Z) :
  sum_numbers data = Return n ->
  exists l : list pyval,
    data = PList l /\ l <> [] /\ forallb item_valid l = true
    /\ n = Zsum (values l).
Proof.
  intros H. rewrite sum_numbers_bind in H.
  destruct (_validate_integer_list data "soma") as [ns|e] eqn:Hv;
    [|discriminate H].
  cbn [bind] in H. injection H as <-.
  destruct (isinstance_list data) eqn:Hl;
    [|rewrite (validate_integer_list_not_list _ _ Hl) in Hv; discriminate Hv].
  destruct data as [| | | | |l|]; try discriminate Hl.
  exists l. split; [reflexivity|].
  destruct l as [|x l]; [discriminate Hv|]. split; [discriminate|].
  apply validated_list_values in Hv as [Hall ->]. now split.
Qed.

(** X13: the sum of a concatenation is the sum of the sums: when
    [sum_numbers] returns on two lists it returns, on the two lists put one
    after the other, the sum of the two results. *)
Theorem X13_sum_of_concatenation (l1 l2 : list pyval) (n1 n2 : Z) :
  sum_numbers (PList l1) = Return n1 ->
  sum_numbers (PList l2) = Return n2 ->
  sum_numbers (PList (l1 ++ l2)) = Return (n1 + n2).
Proof.
  intros H1 H2.
  apply sum_numbers_return_inv in H1 as (k1 & E1 & Hne1 & Hv1 & ->).
  apply sum_numbers_return_inv in H2 as (k2 & E2 & Hne2 & Hv2 & ->).
  injection E1 as <-. injection E2 as <-.
  rewrite sum_numbers_bind, validate_integer_list_valid.
  - cbn [bind]. now rewrite values_app, Zsum_app.
  - destruct l1; [contradiction|discriminate].
  - rewrite forallb_app, Hv1, Hv2. reflexivity.
Qed.

Lemma X13_sum_of_concatenation_witness :
  sum_numbers (PList ([PInt 1; PStr "2"] ++ [PBool true; PInt 4])) = Return (3 + 5).
Proof.
  apply (X13_sum_of_concatenation [PInt 1; PStr "2"] [PBool true; PInt 4] 3 5);
    vm_compute; reflexivity.
Defined.

(** ** Stopping at the first invalid item *)



(** * The two routes of the server (app/API-main-server-prod.py)

    The bodies of [somar_vetor] and [calcular_media_vetor], as functions of
    the list taken from the request, [numeros_entrada.numeros], and of the
    payload of the token, [usuario].  The calls of the logger, which write
    records and do not change what the routes return or raise, are left
    out. *)

(** [d.get(key)]: the value under [key], [None] when there is none. *)
Fixpoint dict_get (d : list (string * pyval)) (key : string) : pyval :=
  match d with
  | [] => PNone
  | (k, v) :: rest => if (k =? key)%string then v else dict_get rest key
  end.

(** What a route does at its end:
    - [ReturnDict content]: it returns the dict [content], which the
      framework sends with status 200;
    - [RaiseHTTPException status_code detail]: it raises
      [HTTPException(status_code, detail=str(e))], [detail] being the message
      of [e];
    - [ReturnJSONResponse status_code erro detalhes]: it returns
      [JSONResponse(status_code, content={"erro": erro, "detalhes": msg})]
      where [msg] is "Erro inesperado no servidor: " followed by [str(e)],
      [detalhes] being the message of [e]. *)
Inductive response : Type :=
| ReturnDict (content : list (string * pyval))
| RaiseHTTPException (status_code : Z) (detail : message)
| ReturnJSONResponse (status_code : Z) (erro : string) (detalhes : message).

Definition HTTP_400_BAD_REQUEST : Z := 400.
Definition HTTP_422_UNPROCESSABLE_ENTITY : Z := 422.
Definition HTTP_500_INTERNAL_SERVER_ERROR : Z := 500.

(** The [except] clauses of the two routes, in their order, for an
    exception of the library: [ValueError], then [TypeError], then, after
    two clauses for exceptions the library does not raise, [Exception]. *)
Definition handle_exception (e : exc) : response :=
  if exc_class_eqb (exc_cls e) ValueError then
    RaiseHTTPException HTTP_422_UNPROCESSABLE_ENTITY (exc_msg e)
  else if exc_class_eqb (exc_cls e) TypeError then
    RaiseHTTPException HTTP_400_BAD_REQUEST (exc_msg e)
  else
    ReturnJSONResponse HTTP_500_INTERNAL_SERVER_ERROR
      "Erro interno do servidor" (exc_msg e).


Definition calcular_media_vetor (lista_numeros : pyval)
    (usuario : list (string * pyval)) : response :=
  match calculate_average lista_numeros with
  | Return resultado_media =>
      match resultado_media with
      | None =>
          ReturnDict
            [("media", PNone);
             ("mensagem", PStr "Operação de média bem-sucedida para lista vazia");
             ("numeros_entrada", lista_numeros);
             ("usuario", dict_get usuario "sub");
             ("nivel_acesso", dict_get usuario "nivel_acesso")]
      | Some f =>
          ReturnDict
            [("media", PFloat f);
             ("mensagem", PStr "Operação de média bem-sucedida");
             ("numeros_entrada", lista_numeros);
             ("usuario", dict_get usuario "sub");
             ("nivel_acesso", dict_get usuario "nivel_acesso")]
      end
  | Raise e => handle_exception e
  end.














(** X18: [calcular_media_vetor] answers with [media] [None] exactly on the
    empty list, with the message for the empty list; every other dict it
    returns holds a finite float under [media]. *)
Theorem X18_calcular_media_vetor_content (lista_numeros : pyval)
    (usuario content : list (string * pyval)) :
  calcular_media_vetor lista_numeros usuario = ReturnDict content ->
  (lista_numeros = PList []
   /\ content
      = [("media", PNone);
         ("mensagem", PStr "Operação de média bem-sucedida para lista vazia");
         ("numeros_entrada", PList []);
         ("usuario", dict_get usuario "sub");
         ("nivel_acesso", dict_get usuario "nivel_acesso")])
  \/ (lista_numeros <> PList []
      /\ exists f : pyfloat,
           float_finite f = true
           /\ calculate_average lista_numeros = Return (Some f)
           /\ content
              = [("media", PFloat f);
                 ("mensagem", PStr "Operação de média bem-sucedida");
                 ("numeros_entrada", lista_numeros);
                 ("usuario", dict_get usuario "sub");
                 ("nivel_acesso", dict_get usuario "nivel_acesso")]).
Proof.
  unfold calcular_media_vetor.
  destruct (calculate_average lista_numeros) as [[f|]|e] eqn:Hc.
  - intros H. injection H as <-. right. split.
    + intros ->. discriminate Hc.
    + exists f. split; [|now split].
      unfold calculate_average in Hc.
      destruct (_validate_integer_list lista_numeros "média") as [ns|e];
        [|cbn in Hc; destruct (exc_class_eqb _ _ || _); discriminate Hc].
      cbn [bind] in Hc. destruct ns as [|n ns]; [discriminate Hc|].
      cbn [list_nonempty negb] in Hc. unfold int_truediv in Hc.
      assert (Hlen : 0 < py_len (n :: ns))
        by (unfold py_len; cbn [List.length]; lia).
      destruct (py_len (n :: ns) =? 0) eqn:Hz; [lia|].
      pose proof (round_quotient_not_nan
                    (xorb (py_sum (n :: ns) <? 0) (py_len (n :: ns) <? 0))
                    (Z.abs (py_sum (n :: ns))) (Z.abs (py_len (n :: ns)))
                    ltac:(lia) ltac:(lia)) as Hnan.
      destruct (round_quotient _ _ _) as [sg|sg| |sg m e]; cbn in Hc;
        try discriminate Hc; try contradiction; injection Hc as <-;
        reflexivity.
  - intros H. injection H as <-. left.
    assert (E : lista_numeros = PList []).
    { destruct (isinstance_list lista_numeros) eqn:Hl.
      - destruct lista_numeros as [| | | | |l|]; try discriminate Hl.
        destruct l as [|x l]; [reflexivity|exfalso].
        unfold calculate_average in Hc.
        rewrite validate_integer_list_nonempty in Hc by discriminate.
        destruct (validate_items "média" 0 (x :: l) []) as [ns|e] eqn:Hv.
        + apply validate_items_length in Hv.
          destruct ns as [|n ns]; [discriminate Hv|].
          cbn [bind list_nonempty negb] in Hc.
          destruct (int_truediv _ _) as [f|e]; cbn in Hc; [discriminate Hc|].
          destruct (exc_class_eqb _ _ || _); discriminate Hc.
        + cbn in Hc. destruct (exc_class_eqb _ _ || _); discriminate Hc.
      - unfold calculate_average in Hc.
        rewrite (validate_integer_list_not_list _ _ Hl) in Hc. discriminate Hc. }
    subst lista_numeros. now split.
  - unfold handle_exception.
    destruct (exc_class_eqb _ _); [discriminate|].
    destruct (exc_class_eqb _ _); discriminate.
Qed.

Lemma X18_calcular_media_vetor_witness :
  (PList [PInt 1; PInt 2; PInt 3; PInt 4] = PList []
   /\ [("media", PFloat float_2_5);
       ("mensagem", PStr "Operação de média bem-sucedida");
       ("numeros_entrada", PList [PInt 1; PInt 2; PInt 3; PInt 4]);
       ("usuario", dict_get [("sub", PStr "admin")] "sub");
       ("nivel_acesso", dict_get [("sub", PStr "admin")] "nivel_acesso")]
      = [("media", PNone);
         ("mensagem", PStr "Operação de média bem-sucedida para lista vazia");
         ("numeros_entrada", PList []);
         ("usuario", dict_get [("sub", PStr "admin")] "sub");
         ("nivel_acesso", dict_get [("sub", PStr "admin")] "nivel_acesso")])
  \/ (PList [PInt 1; PInt 2; PInt 3; PInt 4] <> PList []
      /\ exists f : pyfloat,
           float_finite f = true
           /\ calculate_average (PList [PInt 1; PInt 2; PInt 3; PInt 4])
              = Return (Some f)
           /\ [("media", PFloat float_2_5);
               ("mensagem", PStr "Operação de média bem-sucedida");
               ("numeros_entrada", PList [PInt 1; PInt 2; PInt 3; PInt 4]);
               ("usuario", dict_get [("sub", PStr "admin")] "sub");
               ("nivel_acesso", dict_get [("sub", PStr "admin")] "nivel_acesso")]
              = [("media", PFloat f);
                 ("mensagem", PStr "Operação de média bem-sucedida");
                 ("numeros_entrada", PList [PInt 1; PInt 2; PInt 3; PInt 4]);
                 ("usuario", dict_get [("sub", PStr "admin")] "sub");
                 ("nivel_acesso", dict_get [("sub", PStr "admin")] "nivel_acesso")]).
Proof.
  apply (X18_calcular_media_vetor_content
           (PList [PInt 1; PInt 2; PInt 3; PInt 4]) [("sub", PStr "admin")]).
  vm_compute. reflexivity.
Defined.

(** A numeral beyond the range of a float is an infinity for the loop
    body. *)
Example numeral_out_of_range_is_infinite :
  item_infinite (PStr "1e999") = true /\ item_infinite (PStr "-Infinity") = true.
Proof. vm_compute. split; reflexivity. Qed.
